(** * A mock cryptocurrency ledger: [Block] and [BlockChain]

    Shallow embedding of [src/blockchain.py] (which repeats the [Block]
    class of [src/block.py]) together with the part of the Python runtime
    the two classes call: [str]/[repr]/[format], truthiness, [+], [!=],
    [<=], [hashlib.sha256], list indexing, dict lookup, [vars] and
    [time.time]. *)

From Stdlib Require Import ZArith Lia List Ascii String PrimFloat FloatOps SpecFloat.
From stdpp Require Import base option list gmap strings.
Import ListNotations.

Local Open Scope Z_scope.
Set Warnings "-register-all".

(** ** SHA-256 (FIPS 180-4), as [hashlib.sha256] computes it

    Words are 32-bit integers carried in [Z]; every operation that can
    overflow is reduced modulo [2^32]. *)
Module SHA256.

Definition w32 (x : Z) : Z := Z.land x 0xffffffff.
Definition add32 (x y : Z) : Z := w32 (x + y).
Definition not32 (x : Z) : Z := Z.lxor x 0xffffffff.
Definition rotr (n x : Z) : Z := Z.lor (Z.shiftr x n) (w32 (Z.shiftl x (32 - n))).
Definition shr (n x : Z) : Z := Z.shiftr x n.

Definition Ch (x y z : Z) : Z := Z.lxor (Z.land x y) (Z.land (not32 x) z).
Definition Maj (x y z : Z) : Z :=
  Z.lxor (Z.lxor (Z.land x y) (Z.land x z)) (Z.land y z).
Definition bsig0 (x : Z) : Z := Z.lxor (Z.lxor (rotr 2 x) (rotr 13 x)) (rotr 22 x).
Definition bsig1 (x : Z) : Z := Z.lxor (Z.lxor (rotr 6 x) (rotr 11 x)) (rotr 25 x).
Definition ssig0 (x : Z) : Z := Z.lxor (Z.lxor (rotr 7 x) (rotr 18 x)) (shr 3 x).
Definition ssig1 (x : Z) : Z := Z.lxor (Z.lxor (rotr 17 x) (rotr 19 x)) (shr 10 x).

(** The constants come from the first primes: a round constant is the
    first 32 bits of the fractional part of the cube root of a prime, an
    initial hash word that of its square root. *)
Definition primes : list Z :=
  [2; 3; 5; 7; 11; 13; 17; 19; 23; 29; 31; 37; 41; 43; 47; 53;
   59; 61; 67; 71; 73; 79; 83; 89; 97; 101; 103; 107; 109; 113; 127; 131;
   137; 139; 149; 151; 157; 163; 167; 173; 179; 181; 191; 193; 197; 199; 211; 223;
   227; 229; 233; 239; 241; 251; 257; 263; 269; 271; 277; 281; 283; 293; 307; 311].

(** The integer cube root, found bit by bit from bit [bits - 1] down. *)
Fixpoint cbrt_go (bits : nat) (n r : Z) : Z :=
  match bits with
  | O => r
  | S bits' =>
      let c := r + 2 ^ Z.of_nat bits' in
      if c * c * c <=? n then cbrt_go bits' n c else cbrt_go bits' n r
  end.

Definition frac_cbrt32 (p : Z) : Z := w32 (cbrt_go 36 (p * 2 ^ 96) 0).
Definition frac_sqrt32 (p : Z) : Z := w32 (Z.sqrt (p * 2 ^ 64)).

Definition K : list Z := Eval vm_compute in map frac_cbrt32 primes.

Definition H0 : list Z := Eval vm_compute in map frac_sqrt32 (firstn 8 primes).

(** Padding: the byte [0x80], zero bytes up to 56 modulo 64, then the
    bit length as a 64-bit big-endian integer. *)
Definition be_bytes (n : nat) (x : Z) : list Z :=
  map (fun i => Z.land (Z.shiftr x (8 * Z.of_nat i)) 0xff) (rev (seq 0 n)).

Definition pad (msg : list Z) : list Z :=
  let len := Z.of_nat (length msg) in
  msg ++ [0x80] ++ repeat 0 (Z.to_nat ((55 - len) mod 64)) ++ be_bytes 8 (8 * len).

Fixpoint be_words (bs : list Z) : list Z :=
  match bs with
  | b0 :: b1 :: b2 :: b3 :: rest =>
      (Z.lor (Z.shiftl b0 24) (Z.lor (Z.shiftl b1 16) (Z.lor (Z.shiftl b2 8) b3)))
        :: be_words rest
  | _ => []
  end.

(** The message schedule, most recent word first. *)
Fixpoint extend (n : nat) (ws : list Z) : list Z :=
  match n with
  | O => ws
  | S n' =>
      let wt := add32 (add32 (add32 (ssig1 (nth 1 ws 0)) (nth 6 ws 0))
                         (ssig0 (nth 14 ws 0))) (nth 15 ws 0) in
      extend n' (wt :: ws)
  end.

Definition schedule (blk : list Z) : list Z := rev (extend 48 (rev blk)).

Definition round (st : list Z) (kw : Z * Z) : list Z :=
  match st with
  | [a; b; c; d; e; f; g; h] =>
      let t1 := add32 (add32 (add32 (add32 h (bsig1 e)) (Ch e f g)) (fst kw)) (snd kw) in
      let t2 := add32 (bsig0 a) (Maj a b c) in
      [add32 t1 t2; a; b; c; add32 d t1; e; f; g]
  | _ => st
  end.

Definition zip_with {A B C} (f : A -> B -> C) : list A -> list B -> list C :=
  fix go l1 l2 :=
    match l1, l2 with
    | x :: l1', y :: l2' => f x y :: go l1' l2'
    | _, _ => []
    end.

Definition compress (h : list Z) (blk : list Z) : list Z :=
  zip_with add32 h (fold_left round (combine K (schedule blk)) h).

Fixpoint blocks (fuel : nat) (ws : list Z) (h : list Z) : list Z :=
  match fuel, ws with
  | S fuel', _ :: _ => blocks fuel' (skipn 16 ws) (compress h (firstn 16 ws))
  | _, _ => h
  end.

(** The digest of a byte string, as eight 32-bit words. *)
Definition digest_words (msg : list Z) : list Z :=
  let ws := be_words (pad msg) in
  blocks (length ws) ws H0.

(** The digest as 32 bytes. *)
Definition digest (msg : list Z) : list Z :=
  flat_map (be_bytes 4) (digest_words msg).

End SHA256.

(** ** The Python values the ledger handles *)
Module Py.

(** *** Exceptions and results

    [IndexError], [KeyError] and [TypeError] are the built-in exceptions
    the source can raise.  [EmptyChainError] and [MalformedRecordError]
    are the two conditions the specification names; they are part of the
    type so that statements about them can be written down. *)
Inductive exn : Type :=
| IndexError
| KeyError (key : string)
| TypeError
| EmptyChainError
| MalformedRecordError.

Inductive result (A : Type) : Type :=
| Ok (a : A)
| Raise (e : exn).
Arguments Ok {A} a.
Arguments Raise {A} e.

Definition bind {A B} (r : result A) (k : A -> result B) : result B :=
  match r with
  | Ok a => k a
  | Raise e => Raise e
  end.

#[global] Instance result_ret : MRet result := @Ok.
#[global] Instance result_bind : MBind result := fun A B k r => bind r k.

Definition raises {A} (r : result A) (e : exn) : Prop := r = Raise e.

(** *** Values: [None], [bool], [int], [float], [str], [list] and [dict]
    with string keys (insertion order kept, as [str] prints it).  Strings
    are byte strings holding the UTF-8 encoding of the text, so that
    [.encode()] is the identity on them. *)
Inductive value : Type :=
| PyNone
| PyBool (b : bool)
| PyInt (z : Z)
| PyFloat (f : float)
| PyStr (s : string)
| PyList (l : list value)
| PyDict (kvs : list (string * value)).

(** *** Truthiness, and [a or b] *)
Definition truthy (v : value) : bool :=
  match v with
  | PyNone => false
  | PyBool b => b
  | PyInt z => negb (z =? 0)
  | PyFloat f => match Prim2SF f with S754_zero _ => false | _ => true end
  | PyStr s => negb (String.eqb s EmptyString)
  | PyList l => match l with [] => false | _ :: _ => true end
  | PyDict kvs => match kvs with [] => false | _ :: _ => true end
  end.

Definition py_or (a b : value) : value := if truthy a then a else b.

(** *** Numbers, compared exactly

    A finite number is [m * 2^e]; Python compares [int] with [float]
    (and [float] with [float]) by value, with [nan] unordered. *)
Inductive num : Type :=
| NNan
| NInf (neg : bool)
| NFin (m e : Z).

Definition num_of_float (f : float) : num :=
  match Prim2SF f with
  | S754_zero _ => NFin 0 0
  | S754_infinity s => NInf s
  | S754_nan => NNan
  | S754_finite s m e => NFin (if s then Z.neg m else Z.pos m) e
  end.

Definition num_of (v : value) : option num :=
  match v with
  | PyBool b => Some (NFin (if b then 1 else 0) 0)
  | PyInt z => Some (NFin z 0)
  | PyFloat f => Some (num_of_float f)
  | _ => None
  end.

Definition num_compare (x y : num) : option comparison :=
  match x, y with
  | NNan, _ | _, NNan => None
  | NInf s1, NInf s2 =>
      Some (match s1, s2 with
            | true, false => Lt
            | false, true => Gt
            | _, _ => Eq
            end)
  | NInf s, NFin _ _ => Some (if s then Lt else Gt)
  | NFin _ _, NInf s => Some (if s then Gt else Lt)
  | NFin m1 e1, NFin m2 e2 =>
      let e := Z.min e1 e2 in
      Some (Z.compare (m1 * 2 ^ (e1 - e)) (m2 * 2 ^ (e2 - e)))
  end.

(** [a == b].  Two lists are compared element by element; CPython first
    tests the elements for identity, which only shows on a list that
    holds [nan], and no comparison of the source has a list on its left. *)
Fixpoint py_eq (a b : value) {struct a} : bool :=
  match num_of a, num_of b with
  | Some x, Some y =>
      match num_compare x y with Some Eq => true | _ => false end
  | Some _, None | None, Some _ => false
  | None, None =>
      match a, b with
      | PyNone, PyNone => true
      | PyStr s, PyStr t => String.eqb s t
      | PyList l, PyList l' =>
          (fix go (l : list value) (l' : list value) {struct l} : bool :=
             match l, l' with
             | [], [] => true
             | x :: l, y :: l' => py_eq x y && go l l'
             | _, _ => false
             end) l l'
      | PyDict kvs, PyDict kvs' =>
          (length kvs =? length kvs')%nat &&
          (fix go (kvs : list (string * value)) {struct kvs} : bool :=
             match kvs with
             | [] => true
             | (k, v) :: kvs =>
                 match List.find (fun kv => String.eqb k (fst kv)) kvs' with
                 | Some (_, v') => py_eq v v'
                 | None => false
                 end && go kvs
             end) kvs
      | _, _ => false
      end
  end.

Definition py_ne (a b : value) : bool := negb (py_eq a b).

(** [v + 1]. *)
Definition py_add_one (v : value) : result value :=
  match v with
  | PyBool b => Ok (PyInt ((if b then 1 else 0) + 1))
  | PyInt z => Ok (PyInt (z + 1))
  | PyFloat f => Ok (PyFloat (PrimFloat.add f PrimFloat.one))
  | _ => Raise TypeError
  end.

Fixpoint str_leb (s t : string) : bool :=
  match s, t with
  | EmptyString, _ => true
  | String _ _, EmptyString => false
  | String c s', String d t' =>
      let x := N_of_ascii c in
      let y := N_of_ascii d in
      if (x <? y)%N then true else if (y <? x)%N then false else str_leb s' t'
  end.

(** [a <= b]: numbers by value, strings and lists lexicographically;
    anything else is a [TypeError]. *)
Fixpoint py_le (a b : value) {struct a} : result bool :=
  match num_of a, num_of b with
  | Some x, Some y =>
      Ok (match num_compare x y with Some Lt | Some Eq => true | _ => false end)
  | Some _, None | None, Some _ => Raise TypeError
  | None, None =>
      match a, b with
      | PyStr s, PyStr t => Ok (str_leb s t)
      | PyList l, PyList l' =>
          (fix go (l : list value) (l' : list value) {struct l} : result bool :=
             match l, l' with
             | [], _ => Ok true
             | _ :: _, [] => Ok false
             | x :: l, y :: l' => if py_eq x y then go l l' else py_le x y
             end) l l'
      | _, _ => Raise TypeError
      end
  end.

(** [a > b] on numbers. *)
Definition num_gt (a b : value) : bool :=
  match num_of a, num_of b with
  | Some x, Some y => match num_compare x y with Some Gt => true | _ => false end
  | _, _ => false
  end.


(** *** Text: [str], [repr] and [format] *)

Definition digit_char (d : Z) : ascii := ascii_of_N (48 + Z.to_N d).

Fixpoint dec_go (fuel : nat) (n : Z) (acc : string) : string :=
  match fuel with
  | O => acc
  | S fuel' =>
      let acc' := String (digit_char (n mod 10)) acc in
      if n <? 10 then acc' else dec_go fuel' (n / 10) acc'
  end.

(** Decimal digits of a natural number (a number has no more decimal
    digits than binary ones). *)
Definition dec (n : Z) : string := dec_go (S (Z.to_nat (Z.log2 n))) n EmptyString.

(** [str(z)] for an [int]. *)
Definition str_int (z : Z) : string :=
  match z with
  | Z.neg p => String "-" (dec (Z.pos p))
  | _ => dec z
  end.

Definition hex_char (d : Z) : ascii :=
  if d <? 10 then ascii_of_N (48 + Z.to_N d) else ascii_of_N (87 + Z.to_N d).

Definition hex_byte (b : Z) : string :=
  String (hex_char (b / 16)) (String (hex_char (b mod 16)) EmptyString).

Fixpoint str_contains (c : ascii) (s : string) : bool :=
  match s with
  | EmptyString => false
  | String d s' => Ascii.eqb c d || str_contains c s'
  end.

(** [repr(s)] for a [str]: single quotes unless the text has a single
    quote and no double quote; backslash, the chosen quote, tab, newline
    and carriage return are escaped, other control characters are written
    [\xNN].  Bytes above 127 are kept: the text is taken to have no
    unprintable non-ASCII character. *)
Definition repr_char (q c : ascii) : string :=
  let n := Z.of_N (N_of_ascii c) in
  if Ascii.eqb c "\" then "\\"
  else if Ascii.eqb c q then String "\" (String q EmptyString)
  else if n =? 9 then "\t"
  else if n =? 10 then "\n"
  else if n =? 13 then "\r"
  else if (n <? 32) || (n =? 127) then "\x" +:+ hex_byte n
  else String c EmptyString.

Definition squote : ascii := ascii_of_N 39.
Definition dquote : ascii := ascii_of_N 34.

Definition repr_str (s : string) : string :=
  let q : ascii :=
    if str_contains squote s && negb (str_contains dquote s) then dquote else squote in
  String q (String.concat EmptyString (map (repr_char q) (list_ascii_of_string s)))
    +:+ String q EmptyString.

(** [repr(f)] for a [float]: the shortest decimal string that reads
    back as [f] (the nearest to [f] among the shortest), in fixed
    notation when the decimal point falls within [-4 < decpt <= 16] and
    in exponent notation otherwise.  A finite non-zero float is
    [m * 2^e]; bounds are counted in units of [2^(e-2)]. *)
Section FloatRepr.
Variables (m e : Z).

(** [c * 10^k] compared with [x * 2^(e-2)]. *)
Definition cmp_dec_bin (c k x : Z) : comparison :=
  Z.compare (c * 10 ^ Z.max k 0 * 2 ^ Z.max (2 - e) 0)
            (x * 2 ^ Z.max (e - 2) 0 * 10 ^ Z.max (- k) 0).

(** [floor (m * 2^e / 10^k)]. *)
Definition floor_dec (k : Z) : Z :=
  (4 * m * 2 ^ Z.max (e - 2) 0 * 10 ^ Z.max (- k) 0)
    / (10 ^ Z.max k 0 * 2 ^ Z.max (2 - e) 0).

(** The rounding interval of [m * 2^e]: half way to each neighbour;
    the lower neighbour is nearer when [m] is the least mantissa of a
    binade.  The ends belong to it when [m] is even. *)
Definition lo_x : Z :=
  if (m =? 2 ^ 52) && (-1074 <? e) then 4 * m - 1 else 4 * m - 2.
Definition hi_x : Z := 4 * m + 2.

Definition inside (c k : Z) : bool :=
  match cmp_dec_bin c k lo_x, cmp_dec_bin c k hi_x with
  | Gt, Lt => true
  | Eq, Lt | Gt, Eq => Z.even m
  | _, _ => false
  end.

(** [floor (log10 (m * 2^e))], from an estimate that is off by at most
    a few units. *)
Fixpoint log10_up (fuel : nat) (j : Z) : Z :=
  match fuel with
  | O => j
  | S fuel' =>
      match cmp_dec_bin 1 (j + 1) (4 * m) with
      | Gt => j
      | _ => log10_up fuel' (j + 1)
      end
  end.
Fixpoint log10_down (fuel : nat) (j : Z) : Z :=
  match fuel with
  | O => j
  | S fuel' =>
      match cmp_dec_bin 1 j (4 * m) with
      | Gt => log10_down fuel' (j - 1)
      | _ => j
      end
  end.
Definition log10_floor : Z :=
  let est := ((Z.log2 m + e) * 30103) / 100000 in
  log10_up 4 (log10_down 4 est).

(** The shortest digits [d] and exponent [k] with [d * 10^k] inside the
    interval, trying 1, 2, ... significant digits. *)
Fixpoint shortest_go (fuel : nat) (n : Z) : Z * Z :=
  let k := log10_floor - n + 1 in
  let d := floor_dec k in
  match inside d k, inside (d + 1) k with
  | true, true =>
      match cmp_dec_bin (2 * d + 1) k (8 * m) with
      | Gt => (d, k)
      | Lt => (d + 1, k)
      | Eq => if Z.even d then (d, k) else (d + 1, k)
      end
  | true, false => (d, k)
  | false, true => (d + 1, k)
  | false, false =>
      match fuel with
      | O => (d, k)
      | S fuel' => shortest_go fuel' (n + 1)
      end
  end.

Fixpoint strip_zeros (fuel : nat) (dk : Z * Z) : Z * Z :=
  match fuel with
  | O => dk
  | S fuel' =>
      if (fst dk mod 10 =? 0) && (0 <? fst dk)
      then strip_zeros fuel' (fst dk / 10, snd dk + 1)
      else dk
  end.

Definition shortest : Z * Z := strip_zeros 17 (shortest_go 16 1).
End FloatRepr.

Definition zeros (n : Z) : string :=
  string_of_list_ascii (repeat "0"%char (Z.to_nat n)).

Definition str_take (n : nat) (s : string) : string :=
  string_of_list_ascii (firstn n (list_ascii_of_string s)).
Definition str_drop (n : nat) (s : string) : string :=
  string_of_list_ascii (skipn n (list_ascii_of_string s)).

Definition repr_finite (m e : Z) : string :=
  let (d, k) := shortest m e in
  let ds := dec d in
  let nd := Z.of_nat (String.length ds) in
  let decpt := k + nd in
  if (decpt <=? -4) || (16 <? decpt) then
    let ex := decpt - 1 in
    let mant := if nd =? 1 then ds else str_take 1 ds +:+ "." +:+ str_drop 1 ds in
    let exs := dec (Z.abs ex) in
    mant +:+ "e" +:+ (if ex <? 0 then "-" else "+")
         +:+ (if Z.abs ex <? 10 then "0" else "") +:+ exs
  else if decpt <=? 0 then "0." +:+ zeros (- decpt) +:+ ds
  else if nd <=? decpt then ds +:+ zeros (decpt - nd) +:+ ".0"
  else str_take (Z.to_nat decpt) ds +:+ "." +:+ str_drop (Z.to_nat decpt) ds.

Definition repr_float (f : float) : string :=
  match Prim2SF f with
  | S754_nan => "nan"
  | S754_infinity s => if s then "-inf" else "inf"
  | S754_zero s => if s then "-0.0" else "0.0"
  | S754_finite s m e => (if s then "-" else "") +:+ repr_finite (Z.pos m) e
  end.

(** [repr(v)], and [str(v)], which differs on a [str] only. *)
Fixpoint repr (v : value) : string :=
  match v with
  | PyNone => "None"
  | PyBool b => if b then "True" else "False"
  | PyInt z => str_int z
  | PyFloat f => repr_float f
  | PyStr s => repr_str s
  | PyList l => "[" +:+ String.concat ", " (map repr l) +:+ "]"
  | PyDict kvs =>
      "{" +:+ String.concat ", "
                (map (fun kv => repr_str (fst kv) +:+ ": " +:+ repr (snd kv)) kvs)
          +:+ "}"
  end.

Definition str (v : value) : string :=
  match v with
  | PyStr s => s
  | _ => repr v
  end.

(** [s.encode()]: the bytes of the text. *)
Definition encode (s : string) : list Z :=
  map (fun c => Z.of_N (N_of_ascii c)) (list_ascii_of_string s).

(** [hashlib.sha256(bytes).hexdigest()]. *)
Definition sha256_hexdigest (bytes : list Z) : string :=
  String.concat EmptyString (map hex_byte (SHA256.digest bytes)).

(** [s[:n]]. *)
Definition slice_to (n : nat) (s : string) : string := str_take n s.

(** [l[i]] on a list: a negative index counts from the end; out of
    range is an [IndexError]. *)
Definition list_getitem {A} (l : list A) (i : Z) : result A :=
  let n := Z.of_nat (length l) in
  let j := if i <? 0 then i + n else i in
  if (j <? 0) || (n <=? j) then Raise IndexError
  else match l !! Z.to_nat j with
       | Some x => Ok x
       | None => Raise IndexError
       end.

(** [d[k]] on a dict: an absent key is a [KeyError]. *)
Definition dict_getitem (d : gmap string value) (k : string) : result value :=
  match d !! k with
  | Some v => Ok v
  | None => Raise (KeyError k)
  end.

End Py.

Import Py.

(** ** [class Block] *)
Module Block.

Record t : Type := mk {
  index : value;
  proof_no : value;
  prev_hash : value;
  data : value;
  timestamp : value
}.

(** [Block(index, proof_no, prev_hash, data, timestamp)], run while the
    clock [time.time()] reads [now]; callers that omit [timestamp] pass
    its default [None]. *)
Definition __init__ (index proof_no prev_hash data timestamp : value) (now : float) : t :=
  {| index := index;
     proof_no := proof_no;
     prev_hash := prev_hash;
     data := data;
     timestamp := py_or timestamp (PyFloat now) |}.

Definition calculate_hash (self : t) : string :=
  let block_of_string :=
    str (index self) +:+ str (proof_no self) +:+ str (prev_hash self)
      +:+ str (data self) +:+ str (timestamp self) in
  sha256_hexdigest (encode block_of_string).

(** [vars(block)]: the mapping of the five attributes (the contents of
    the dict that holds them). *)
Definition vars (self : t) : gmap string value :=
  <["index" := index self]>
    (<["proof_no" := proof_no self]>
       (<["prev_hash" := prev_hash self]>
          (<["data" := data self]>
             (<["timestamp" := timestamp self]> ∅)))).

End Block.

(** ** [class BlockChain] *)
Module BlockChain.

Record t : Type := mk {
  chain : list Block.t;
  current_data : list value;
  nodes : gset string
}.

(** The block takes the list that [current_data] names and the ledger
    then names a new empty list, so nothing added later reaches the
    block. *)
Definition construct_block (proof_no prev_hash : value) (now : float) (self : t)
  : Block.t * t :=
  let block :=
    Block.__init__ (PyInt (Z.of_nat (length (chain self)))) proof_no prev_hash
      (PyList (current_data self)) PyNone now in
  (block, {| chain := chain self ++ [block]; current_data := []; nodes := nodes self |}).

Definition construct_genesis (now : float) (self : t) : t :=
  snd (construct_block (PyInt 0) (PyInt 0) now self).

Definition __init__ (now : float) : t :=
  construct_genesis now {| chain := []; current_data := []; nodes := ∅ |}.

Definition new_data (sender recipient quantity : value) (self : t) : value * t :=
  (PyBool true,
   {| chain := chain self;
      current_data :=
        current_data self
          ++ [PyDict [("sender", sender); ("recipient", recipient); ("quantity", quantity)]];
      nodes := nodes self |}).

Definition verifying_proof (last_proof proof : value) : bool :=
  let guess := encode (str last_proof +:+ str proof) in
  let guess_hash := sha256_hexdigest guess in
  String.eqb (slice_to 4 guess_hash) "0000".

Definition check_validity (block prev_block : Block.t) : result bool :=
  next ← py_add_one (Block.index prev_block);
  if py_ne next (Block.index block) then Ok false
  else if py_ne (PyStr (Block.calculate_hash prev_block)) (Block.prev_hash block)
  then Ok false
  else if negb (verifying_proof (Block.proof_no block) (Block.proof_no prev_block))
  then Ok false
  else
    le ← py_le (Block.timestamp block) (Block.timestamp prev_block);
    if (le : bool) then Ok false else Ok true.

(** *** The loop of [proof_of_work]

    A pass of a loop body either falls through to the next test or
    leaves the function with a value. *)
Inductive flow (St R : Type) : Type :=
| Next (s : St)
| Return (r : R).
Arguments Next {St R} s.
Arguments Return {St R} r.

(** [while cond: body], run for at most [fuel] passes: [None] when the
    passes run out, [Some (Next s)] when the test fails in state [s],
    [Some (Return r)] when the body returns [r]. *)
Fixpoint while {St R} (fuel : nat) (cond : St -> bool) (body : St -> flow St R) (s : St)
  : option (flow St R) :=
  if cond s then
    match fuel with
    | O => None
    | S fuel' =>
        match body s with
        | Next s' => while fuel' cond body s'
        | Return r => Some (Return r)
        end
    end
  else Some (Next s).

(** The state of the loop is the integer [proof_no]; the [return] sits
    inside the loop body, and a function that runs off its end returns
    [None]. *)
Definition proof_of_work_run (fuel : nat) (last_proof : value) : option value :=
  let proof_no := 0 in
  match
    while fuel
      (fun proof_no => negb (verifying_proof (PyInt proof_no) last_proof))
      (fun proof_no => let proof_no := proof_no + 1 in Return (PyInt proof_no))
      proof_no
  with
  | Some (Return r) => Some r
  | Some (Next _) => Some PyNone
  | None => None
  end.

(** One pass is all the loop ever makes ([proof_of_work_run_fuel]
    below), so the call has a value. *)
Definition proof_of_work (last_proof : value) : value :=
  default PyNone (proof_of_work_run 1 last_proof).

Definition latest_block (self : t) : result Block.t :=
  list_getitem (chain self) (-1).

Definition block_mining (details_miner : value) (now : float) (self : t)
  : result (gmap string value * t) :=
  let self := snd (new_data (PyStr "0") details_miner (PyInt 1) self) in
  last_block ← latest_block self;
  let last_proof_no := Block.proof_no last_block in
  let proof_no := proof_of_work last_proof_no in
  let last_hash := Block.calculate_hash last_block in
  let (block, self) := construct_block proof_no (PyStr last_hash) now self in
  Ok (Block.vars block, self).

Definition create_node (address : string) (self : t) : value * t :=
  (PyBool true,
   {| chain := chain self;
      current_data := current_data self;
      nodes := {[address]} ∪ nodes self |}).

Definition obtain_block_object (block_data : gmap string value) (now : float)
  : result Block.t :=
  index ← dict_getitem block_data "index";
  proof_no ← dict_getitem block_data "proof_no";
  prev_hash ← dict_getitem block_data "prev_hash";
  data ← dict_getitem block_data "data";
  timestamp ← dict_getitem block_data "timestamp";
  Ok (Block.__init__ index proof_no prev_hash data timestamp now).

(** The ledgers a caller can get: a new one, and whatever the public
    methods make of one. *)
Inductive reachable : t -> Prop :=
| reach_init now : reachable (__init__ now)
| reach_new_data sender recipient quantity self :
    reachable self -> reachable (snd (new_data sender recipient quantity self))
| reach_construct_block proof_no prev_hash now self :
    reachable self -> reachable (snd (construct_block proof_no prev_hash now self))
| reach_block_mining details_miner now self out self' :
    reachable self ->
    block_mining details_miner now self = Ok (out, self') ->
    reachable self'
| reach_create_node address self :
    reachable self -> reachable (snd (create_node address self)).

End BlockChain.

Import BlockChain.

(** * Definitions used by the statements *)

(** A clock reading: 1691604901.4696717 seconds after the epoch. *)
Definition sample_clock : float := 0x1.934f5e95e0f1ap+30%float.

(** A ledger with no block: the state [BlockChain.__init__] starts from,
    before the genesis block is made. *)
Definition empty_ledger : BlockChain.t :=
  {| chain := []; current_data := []; nodes := ∅ |}.

(** The reward transaction that [block_mining] stages. *)
Definition reward (details_miner : value) : value :=
  PyDict [("sender", PyStr "0"); ("recipient", details_miner); ("quantity", PyInt 1)].

(** A record with every key bound to a value of the wrong kind. *)
Definition mistyped_record : gmap string value :=
  <["index" := PyStr "seven"]>
    (<["proof_no" := PyList []]>
       (<["prev_hash" := PyNone]>
          (<["data" := PyInt 3]>
             (<["timestamp" := PyStr "noon"]> ∅)))).

(** The genesis block made when the clock reads [sample_clock]. *)
Definition sample_genesis : Block.t :=
  Block.__init__ (PyInt 0) (PyInt 0) (PyInt 0) (PyList []) PyNone sample_clock.

(** A block that follows it, one second later: its proof number 88914
    satisfies the predicate against 0, and its [prev_hash] is the content
    hash of [sample_genesis]. *)
Definition sample_successor : Block.t :=
  Block.__init__ (PyInt 1) (PyInt 88914)
    (PyStr "bce70ef7aec2074155ae32feb7f95a6e8ce1e4380f3e4e7e98a4f93ffcbd8452")
    (PyList []) (PyFloat (PrimFloat.add sample_clock PrimFloat.one)) sample_clock.

(** The block mined for "miner1" on the new ledger of [sample_clock], and
    the ledger after it. *)
Definition sample_mined_block : Block.t :=
  Block.__init__ (PyInt 1) (proof_of_work (PyInt 0))
    (PyStr (Block.calculate_hash sample_genesis))
    (PyList [reward (PyStr "miner1")]) PyNone sample_clock.

Definition sample_mined_ledger : BlockChain.t :=
  {| chain := [sample_genesis; sample_mined_block]; current_data := []; nodes := ∅ |}.

(** The keys [obtain_block_object] reads, in the order it reads them. *)
Definition required_keys : list string :=
  ["index"; "proof_no"; "prev_hash"; "data"; "timestamp"].

(** The number a string of decimal digits writes, read left to right
    from [acc]. *)
Fixpoint dec_value (s : string) (acc : Z) : Z :=
  match s with
  | EmptyString => acc
  | String c s' => dec_value s' (10 * acc + (Z.of_N (N_of_ascii c) - 48))
  end.

(** One call of a method that changes the ledger. *)
Inductive step : BlockChain.t -> BlockChain.t -> Prop :=
| step_new_data sender recipient quantity self :
    step self (snd (new_data sender recipient quantity self))
| step_construct_block proof_no prev_hash now self :
    step self (snd (construct_block proof_no prev_hash now self))
| step_block_mining details_miner now self out self' :
    block_mining details_miner now self = Ok (out, self') ->
    step self self'
| step_create_node address self :
    step self (snd (create_node address self)).

(** The ledgers made by the constructor, [new_data], [create_node] and
    [block_mining] alone: every block after the first is a mined one. *)
Inductive mined : BlockChain.t -> Prop :=
| mined_init now : mined (__init__ now)
| mined_new_data sender recipient quantity self :
    mined self -> mined (snd (new_data sender recipient quantity self))
| mined_block_mining details_miner now self out self' :
    mined self ->
    block_mining details_miner now self = Ok (out, self') ->
    mined self'
| mined_create_node address self :
    mined self -> mined (snd (create_node address self)).

(** What holds of the chain of a mined ledger: a block's index is its
    position, the first block has proof number 0 and the others 1, each
    block after the first carries the content hash of the block before it,
    and the first carries 0. *)
Definition mined_chain (l : list Block.t) : Prop :=
  (forall i b, l !! i = Some b ->
     Block.index b = PyInt (Z.of_nat i)
     /\ Block.proof_no b = PyInt (match i with O => 0 | S _ => 1 end))
  /\ (forall i p b, l !! i = Some p -> l !! S i = Some b ->
        Block.prev_hash b = PyStr (Block.calculate_hash p))
  /\ (forall b, l !! O = Some b -> Block.prev_hash b = PyInt 0).

(** The record [new_data] appends for a transaction. *)
Definition transaction (tx : value * value * value) : value :=
  PyDict [("sender", fst (fst tx)); ("recipient", snd (fst tx)); ("quantity", snd tx)].

(** [new_data] called once for each transaction of a list, in order. *)
Definition stage (txs : list (value * value * value)) (self : BlockChain.t) : BlockChain.t :=
  fold_left (fun self tx => snd (new_data (fst (fst tx)) (snd (fst tx)) (snd tx) self))
    txs self.


(** Looks a literal key up in a mapping written as a chain of inserts. *)
Ltac lookup_inserted :=
  repeat (rewrite lookup_insert_ne by discriminate); apply lookup_insert_eq.

(** * Properties *)

(** ** Helper lemmas on the runtime *)
Section Runtime.

Lemma bind_ok {A B} (a : A) (k : A -> result B) : (x ← Ok a; k x) = k a.
Proof. reflexivity. Qed.

Lemma bind_raise {A B} (e : exn) (k : A -> result B) : (x ← Raise e; k x) = Raise e.
Proof. reflexivity. Qed.

(** Indexing with [-1] gives the last element, and fails on []. *)
Lemma list_getitem_last {A} (l : list A) (x : A) :
  list_getitem (l ++ [x]) (-1) = Ok x.
Proof.
  unfold list_getitem.
  rewrite length_app, Nat2Z.inj_add. cbn [length Z.ltb Z.compare].
  replace (-1 + (Z.of_nat (length l) + Z.of_nat 1)) with (Z.of_nat (length l)) by lia.
  destruct (Z.ltb_spec (Z.of_nat (length l)) 0) as [?|_]; [lia|].
  destruct (Z.leb_spec (Z.of_nat (length l) + Z.of_nat 1) (Z.of_nat (length l))) as [?|_];
    [lia|].
  cbn [orb]. rewrite Nat2Z.id.
  now rewrite lookup_app_r, Nat.sub_diag by lia.
Qed.

Lemma list_getitem_nil {A} (i : Z) : list_getitem (@nil A) i = Raise IndexError.
Proof.
  unfold list_getitem. cbn [length]. change (Z.of_nat 0) with 0.
  destruct (i <? 0) eqn:Hi.
  - rewrite Z.add_0_r, Hi. reflexivity.
  - rewrite Hi. cbn [orb].
    destruct (Z.leb_spec 0 i) as [_|?]; [reflexivity|].
    apply Z.ltb_ge in Hi. lia.
Qed.


End Runtime.

(** ** The proof-of-work loop *)
Section ProofOfWork.

(** A loop whose body returns makes one pass at most. *)
Lemma while_body_returns {St R} (cond : St -> bool) (ret : St -> R) (fuel : nat) (s : St) :
  while (S fuel) cond (fun s => Return (ret s)) s
  = Some (if cond s then Return (ret s) else Next s).
Proof. cbn [while]. now destruct (cond s). Qed.

(** Whatever fuel it is given, [proof_of_work] tests candidate 0 only. *)
Lemma proof_of_work_run_fuel (fuel : nat) (last_proof : value) :
  proof_of_work_run (S fuel) last_proof
  = Some (if verifying_proof (PyInt 0) last_proof then PyNone else PyInt 1).
Proof.
  unfold proof_of_work_run.
  rewrite (while_body_returns _ (fun proof_no => PyInt (proof_no + 1))).
  now destruct (verifying_proof (PyInt 0) last_proof).
Qed.

Lemma proof_of_work_value (last_proof : value) :
  proof_of_work last_proof
  = if verifying_proof (PyInt 0) last_proof then PyNone else PyInt 1.
Proof. unfold proof_of_work. now rewrite proof_of_work_run_fuel. Qed.

End ProofOfWork.

(** ** The runtime model on known values *)
Section KnownValues.

Example sha256_abc :
  sha256_hexdigest (encode "abc")
  = "ba7816bf8f01cfea414140de5dae2223b00361a396177a9cb410ff61f20015ad".
Proof. now vm_compute. Qed.

Example sha256_two_blocks :
  sha256_hexdigest (encode "abcdbcdecdefdefgefghfghighijhijkijkljklmklmnlmnomnopnopq")
  = "248d6a61d20638b8e5c026930c3e6039a33ce45964ff2167f6ecedd419db06c1".
Proof. now vm_compute. Qed.

Example repr_float_sample_clock : repr_float sample_clock = "1691604901.4696717".
Proof. now vm_compute. Qed.

Example repr_float_forms :
  map repr_float
    [0x1.999999999999ap-4; 0x1.1c37937e08p+53; 0x1.a36e2eb1c432dp-14;
     0x1.4f8b588e368f1p-17; 0x0.0000000000001p-1022; 0x1.4p+1; 0x1.9p+6]%float
  = ["0.1"; "1e+16"; "0.0001"; "1e-05"; "5e-324"; "2.5"; "100.0"].
Proof. now vm_compute. Qed.

Example str_transactions :
  str (PyList [PyDict [("sender", PyStr "A"); ("recipient", PyStr "B"); ("quantity", PyInt 5)];
               reward (PyStr "miner1")])
  = "[{'sender': 'A', 'recipient': 'B', 'quantity': 5}, {'sender': '0', 'recipient': 'miner1', 'quantity': 1}]".
Proof. now vm_compute. Qed.

(** The content hash of the genesis block made when the clock reads
    [sample_clock]: the digest of "0001691604901.4696717" with "[]" for
    the empty data before the timestamp. *)
Example genesis_hash_sample_clock :
  map Block.calculate_hash (chain (__init__ sample_clock))
  = ["bce70ef7aec2074155ae32feb7f95a6e8ce1e4380f3e4e7e98a4f93ffcbd8452"].
Proof. now vm_compute. Qed.

End KnownValues.

(** ** Mining *)
Section Mining.

Lemma latest_block_new_data sender recipient quantity self :
  latest_block (snd (new_data sender recipient quantity self)) = latest_block self.
Proof. reflexivity. Qed.

(** What [block_mining] does on a ledger that has a latest block. *)
Lemma block_mining_ok details_miner now self tip :
  latest_block self = Ok tip ->
  let block :=
    Block.__init__ (PyInt (Z.of_nat (length (chain self))))
      (proof_of_work (Block.proof_no tip)) (PyStr (Block.calculate_hash tip))
      (PyList (current_data self ++ [reward details_miner])) PyNone now in
  block_mining details_miner now self
  = Ok (Block.vars block,
        {| chain := chain self ++ [block]; current_data := []; nodes := nodes self |}).
Proof.
  intros Htip block. unfold block_mining.
  rewrite latest_block_new_data, Htip. reflexivity.
Qed.




End Mining.

(** ** Claims *)

(** C9. Whatever the loop is allowed to run, [proof_of_work(last_proof)] is
    decided by candidate 0 alone: it returns 1 when the predicate fails for
    candidate 0 against [last_proof] and [None] when it holds, whether or
    not candidate 1 or a later one satisfies the predicate.  So a mined
    block can carry [None] as its [proof_no]: a reachable ledger whose
    latest block has proof number 69732 yields one. *)
Theorem proof_of_work_probes_zero_only :
  (forall (fuel : nat) (last_proof : value),
     proof_of_work_run (S fuel) last_proof
     = Some (if verifying_proof (PyInt 0) last_proof then PyNone else PyInt 1))
  /\ (forall (fuel : nat) (last_proof : Z),
        (verifying_proof (PyInt 0) (PyInt last_proof) = false ->
         proof_of_work_run (S fuel) (PyInt last_proof) = Some (PyInt 1))
        /\ (verifying_proof (PyInt 0) (PyInt last_proof) = true ->
            proof_of_work_run (S fuel) (PyInt last_proof) = Some PyNone))
  /\ exists self now out self',
       reachable self
       /\ block_mining (PyStr "miner1") now self = Ok (out, self')
       /\ out !! "proof_no" = Some PyNone.
Proof.
  split; [exact proof_of_work_run_fuel|]. split.
  - intros fuel last_proof. rewrite proof_of_work_run_fuel.
    split; intros ->; reflexivity.
  - set (self := snd (construct_block (PyInt 69732) (PyInt 0) sample_clock
                       (__init__ sample_clock))).
    assert (Htip : exists tip, latest_block self = Ok tip
                               /\ Block.proof_no tip = PyInt 69732).
    { eexists. split; [apply (list_getitem_last [_])|reflexivity]. }
    destruct Htip as (tip & Htip & Hproof).
    eexists self, sample_clock, _, _. split; [|split].
    + apply reach_construct_block, reach_init.
    + apply (block_mining_ok _ _ _ _ Htip).
    + unfold Block.vars. rewrite lookup_insert_ne by discriminate.
      rewrite lookup_insert_eq. cbn [Block.__init__ Block.proof_no].
      rewrite Hproof, proof_of_work_value.
      now vm_compute.
Qed.

Lemma proof_of_work_probes_zero_only_witness :
  proof_of_work_run 3 (PyInt 0) = Some (PyInt 1)
  /\ proof_of_work_run 3 (PyInt 69732) = Some PyNone.
Proof.
  split.
  - apply (proj1 (proj1 (proj2 proof_of_work_probes_zero_only) 2%nat 0)). now vm_compute.
  - apply (proj2 (proj1 (proj2 proof_of_work_probes_zero_only) 2%nat 69732)). now vm_compute.
Defined.

(** C1. The search does not find the least candidate that satisfies the
    predicate.  For [last_proof = 0] it returns 1 although the predicate
    fails for candidate 1 (the least candidate that satisfies it is not 1:
    the digest of "10" begins with "4a44"); for [last_proof = 69732] the
    predicate holds for candidate 0, and the call returns [None], not 0. *)
Theorem proof_of_work_not_least_candidate :
  (forall fuel, proof_of_work_run (S fuel) (PyInt 0) = Some (PyInt 1))
  /\ verifying_proof (PyInt 1) (PyInt 0) = false
  /\ sha256_hexdigest (encode "10")
     = "4a44dc15364204a80fe80e9039455cc1608281820fe2b24f1e5233ade6af1dd5"
  /\ (forall fuel, proof_of_work_run (S fuel) (PyInt 69732) = Some PyNone)
  /\ verifying_proof (PyInt 0) (PyInt 69732) = true.
Proof.
  repeat split; try (intros fuel; rewrite proof_of_work_run_fuel); now vm_compute.
Qed.

(** ** Decimal text *)
Section Decimal.

Lemma dec_value_app (s t : string) (acc : Z) :
  dec_value (s +:+ t) acc = dec_value t (dec_value s acc).
Proof. revert acc. induction s as [|c s IH]; intros acc; cbn; [reflexivity | apply IH]. Qed.

Lemma str_app_cons (c : ascii) (s t : string) : String c s +:+ t = String c (s +:+ t).
Proof. reflexivity. Qed.

Lemma str_app_assoc (s t u : string) : (s +:+ t) +:+ u = s +:+ (t +:+ u).
Proof. induction s as [|c s IH]; [reflexivity | now rewrite !str_app_cons, IH]. Qed.

Lemma str_app_empty_r (s : string) : s +:+ EmptyString = s.
Proof. induction s as [|c s IH]; [reflexivity | now rewrite str_app_cons, IH]. Qed.

Lemma str_length_snoc (s : string) (c : ascii) :
  String.length (s +:+ String c EmptyString) = S (String.length s).
Proof.
  induction s as [|d s IH]; [reflexivity|].
  rewrite str_app_cons. cbn [String.length]. now rewrite IH.
Qed.

Lemma digit_char_code (d : Z) :
  0 <= d < 10 -> Z.of_N (N_of_ascii (digit_char d)) - 48 = d.
Proof.
  intros Hd. unfold digit_char.
  rewrite N_ascii_embedding by lia. lia.
Qed.

Lemma dec_go_spec (fuel : nat) :
  forall n acc, 0 <= n < 2 ^ Z.of_nat fuel ->
    exists s, dec_go fuel n acc = s +:+ acc
              /\ forall a, dec_value s a = a * 10 ^ Z.of_nat (String.length s) + n.
Proof.
  induction fuel as [|fuel IH]; intros n acc Hn.
  - exists EmptyString. split; [reflexivity|]. intros a. cbn in *. lia.
  - cbn [dec_go]. destruct (Z.ltb_spec n 10) as [Hlt|Hge].
    + exists (String (digit_char (n mod 10)) EmptyString). split; [reflexivity|].
      intros a. cbn [dec_value String.length].
      rewrite digit_char_code by (apply Z.mod_pos_bound; lia).
      rewrite Z.mod_small by lia. change (10 ^ Z.of_nat 1) with 10. lia.
    + destruct (IH (n / 10) (String (digit_char (n mod 10)) acc)) as (s & Hs & Hv).
      { split; [apply Z.div_pos; lia|].
        apply Z.div_lt_upper_bound; [lia|].
        rewrite Nat2Z.inj_succ, Z.pow_succ_r in Hn by lia. lia. }
      exists (s +:+ String (digit_char (n mod 10)) EmptyString). split.
      * rewrite Hs, str_app_assoc. reflexivity.
      * intros a. rewrite dec_value_app, Hv. cbn [dec_value].
        rewrite digit_char_code by (apply Z.mod_pos_bound; lia).
        rewrite str_length_snoc, Nat2Z.inj_succ, Z.pow_succ_r by lia.
        pose proof (Z.div_mod n 10 ltac:(lia)). lia.
Qed.

(** [str(z)] is the decimal writing of [z]: an optional minus sign and
    digits that read back as [|z|]. *)
Lemma str_int_decimal (z : Z) :
  str_int z = (if z <? 0 then "-" else EmptyString) +:+ dec (Z.abs z)
  /\ dec_value (dec (Z.abs z)) 0 = Z.abs z.
Proof.
  split.
  - destruct z; reflexivity.
  - unfold dec.
    destruct (dec_go_spec (S (Z.to_nat (Z.log2 (Z.abs z)))) (Z.abs z) EmptyString)
      as (s & Hs & Hv).
    { split; [lia|].
      rewrite Nat2Z.inj_succ, Z2Nat.id by apply Z.log2_nonneg.
      destruct (Z.eq_dec (Z.abs z) 0) as [->|Hz]; [reflexivity|].
      apply Z.log2_spec. lia. }
    rewrite Hs, str_app_empty_r, Hv. lia.
Qed.

End Decimal.


(** C5 as amended. On a ledger whose chain is empty [latest_block] fails
    with the built-in [IndexError]; on a chain that is not empty it
    returns the last element. *)
Theorem latest_block_last_or_IndexError (self : BlockChain.t) :
  (chain self = [] -> latest_block self = Raise IndexError)
  /\ (forall l b, chain self = l ++ [b] -> latest_block self = Ok b).
Proof.
  unfold latest_block. split.
  - intros ->. apply list_getitem_nil.
  - intros l b ->. apply list_getitem_last.
Qed.

Lemma latest_block_last_or_IndexError_witness :
  latest_block empty_ledger = Raise IndexError
  /\ latest_block (__init__ sample_clock)
     = Ok (Block.mk (PyInt 0) (PyInt 0) (PyInt 0) (PyList []) (PyFloat sample_clock)).
Proof.
  split.
  - apply (proj1 (latest_block_last_or_IndexError empty_ledger)). reflexivity.
  - apply (proj2 (latest_block_last_or_IndexError (__init__ sample_clock)) []). reflexivity.
Defined.

(** C5 as stated fails: on the empty chain the failure is an [IndexError],
    not an [EmptyChainError]. *)
Lemma latest_block_empty_not_EmptyChainError :
  latest_block empty_ledger = Raise IndexError
  /\ ~ raises (latest_block empty_ledger) EmptyChainError.
Proof. split; [reflexivity | discriminate]. Qed.

(** C6. A new ledger has a chain of exactly one block, the genesis block,
    with index 0, proof number 0, previous hash 0 and no transaction; its
    pending buffer is empty. *)
Theorem fresh_ledger_has_genesis_only (now : float) :
  exists genesis,
    chain (__init__ now) = [genesis]
    /\ length (chain (__init__ now)) = 1%nat
    /\ Block.index genesis = PyInt 0
    /\ Block.proof_no genesis = PyInt 0
    /\ Block.prev_hash genesis = PyInt 0
    /\ Block.data genesis = PyList []
    /\ current_data (__init__ now) = [].
Proof. eexists. repeat split. Qed.



(** ** Deserialising a block *)
Section Deserialise.

(** With the five keys bound, to values of any kind, a block is built
    from them. *)
Lemma obtain_block_object_present record index proof_no prev_hash data timestamp now :
  record !! "index" = Some index ->
  record !! "proof_no" = Some proof_no ->
  record !! "prev_hash" = Some prev_hash ->
  record !! "data" = Some data ->
  record !! "timestamp" = Some timestamp ->
  obtain_block_object record now
  = Ok (Block.__init__ index proof_no prev_hash data timestamp now).
Proof.
  intros Hi Hp Hh Hd Ht. unfold obtain_block_object, dict_getitem.
  now rewrite Hi, Hp, Hh, Hd, Ht.
Qed.

(** With a key missing, the first missing one, in the order the
    arguments are read, is reported in a [KeyError]. *)
Lemma obtain_block_object_absent (record : gmap string value) now :
  (exists k, In k required_keys /\ record !! k = None) ->
  exists pre k post,
    required_keys = pre ++ k :: post
    /\ Forall (fun k' => is_Some (record !! k')) pre
    /\ record !! k = None
    /\ obtain_block_object record now = Raise (KeyError k).
Proof.
  intros (k & Hin & Hk). unfold obtain_block_object, dict_getitem.
  destruct (record !! "index") as [i|] eqn:Hi;
    [|now exists [], "index", ["proof_no"; "prev_hash"; "data"; "timestamp"]].
  destruct (record !! "proof_no") as [p|] eqn:Hp;
    [|exists ["index"], "proof_no", ["prev_hash"; "data"; "timestamp"];
      repeat split; auto; repeat constructor; rewrite ?Hi; eauto].
  destruct (record !! "prev_hash") as [h|] eqn:Hh;
    [|exists ["index"; "proof_no"], "prev_hash", ["data"; "timestamp"];
      repeat split; auto; repeat constructor; rewrite ?Hi, ?Hp; eauto].
  destruct (record !! "data") as [d|] eqn:Hd;
    [|exists ["index"; "proof_no"; "prev_hash"], "data", ["timestamp"];
      repeat split; auto; repeat constructor; rewrite ?Hi, ?Hp, ?Hh; eauto].
  destruct (record !! "timestamp") as [t|] eqn:Ht;
    [|exists ["index"; "proof_no"; "prev_hash"; "data"], "timestamp", [];
      repeat split; auto; repeat constructor; rewrite ?Hi, ?Hp, ?Hh, ?Hd; eauto].
  cbn in Hin. destruct Hin as [<-|[<-|[<-|[<-|[<-|[]]]]]]; congruence.
Qed.

Lemma vars_lookup (b : Block.t) :
  Block.vars b !! "index" = Some (Block.index b)
  /\ Block.vars b !! "proof_no" = Some (Block.proof_no b)
  /\ Block.vars b !! "prev_hash" = Some (Block.prev_hash b)
  /\ Block.vars b !! "data" = Some (Block.data b)
  /\ Block.vars b !! "timestamp" = Some (Block.timestamp b).
Proof.
  unfold Block.vars. repeat split; lookup_inserted.
Qed.

Lemma obtain_block_object_vars (b : Block.t) (now : float) :
  obtain_block_object (Block.vars b) now
  = Ok (Block.__init__ (Block.index b) (Block.proof_no b) (Block.prev_hash b)
          (Block.data b) (Block.timestamp b) now).
Proof.
  destruct (vars_lookup b) as (Hi & Hp & Hh & Hd & Ht).
  now apply obtain_block_object_present.
Qed.

(** A block whose timestamp is truthy comes back unchanged. *)
Lemma obtain_block_object_vars_truthy (b : Block.t) (now : float) :
  truthy (Block.timestamp b) = true ->
  obtain_block_object (Block.vars b) now = Ok b.
Proof.
  intros Ht. rewrite obtain_block_object_vars.
  unfold Block.__init__, py_or. rewrite Ht. now destruct b.
Qed.

(** The constructor stores a truthy timestamp whenever the clock does
    not read zero. *)
Lemma init_timestamp_truthy index proof_no prev_hash data timestamp now :
  truthy (PyFloat now) = true ->
  truthy (Block.timestamp (Block.__init__ index proof_no prev_hash data timestamp now))
  = true.
Proof.
  intros Hnow. cbn [Block.__init__ Block.timestamp]. unfold py_or.
  now destruct (truthy timestamp) eqn:Hts.
Qed.

(** A float that is not a zero differs from the integer 0. *)
Lemma truthy_float_ne_zero (f : float) :
  truthy (PyFloat f) = true -> py_eq (PyFloat f) (PyInt 0) = false.
Proof.
  cbn [truthy py_eq num_of]. unfold num_of_float.
  destruct (Prim2SF f) as [s|s| |s m e]; try discriminate; intros _.
  - now destruct s.
  - reflexivity.
  - cbn [num_compare].
    assert (Hpow : 0 < 2 ^ (e - Z.min e 0)) by (apply Z.pow_pos_nonneg; lia).
    destruct (Z.compare_spec ((if s then Z.neg m else Z.pos m) * 2 ^ (e - Z.min e 0))
                (0 * 2 ^ (0 - Z.min e 0))) as [Heq|_|_]; try reflexivity.
    destruct s; nia.
Qed.

End Deserialise.

(** C7. A block built by the constructor while the clock reads a time
    other than zero is rebuilt by [obtain_block_object] from the mapping of
    its attributes, whenever that happens, with the same content hash (it
    is the same block). *)
Theorem obtain_block_object_vars_roundtrip
    (index proof_no prev_hash data timestamp : value) (now later : float) :
  truthy (PyFloat now) = true ->
  let block := Block.__init__ index proof_no prev_hash data timestamp now in
  exists block',
    obtain_block_object (Block.vars block) later = Ok block'
    /\ block' = block
    /\ Block.calculate_hash block' = Block.calculate_hash block.
Proof.
  intros Hnow block. exists block. split; [|split; reflexivity].
  apply obtain_block_object_vars_truthy.
  now apply init_timestamp_truthy.
Qed.

Lemma obtain_block_object_vars_roundtrip_witness :
  let block := Block.__init__ (PyInt 0) (PyInt 0) (PyInt 0) (PyList []) PyNone sample_clock in
  exists block',
    obtain_block_object (Block.vars block) PrimFloat.one = Ok block'
    /\ block' = block
    /\ Block.calculate_hash block' = Block.calculate_hash block.
Proof.
  apply (obtain_block_object_vars_roundtrip (PyInt 0) (PyInt 0) (PyInt 0) (PyList []) PyNone
           sample_clock PrimFloat.one).
  reflexivity.
Defined.

(** C8 as amended. If a required key is absent, [obtain_block_object]
    fails with the built-in [KeyError] naming the first absent key, in the
    order index, proof_no, prev_hash, data, timestamp; if the five keys are
    bound it builds the block from the values, whatever their types. *)
Theorem obtain_block_object_KeyError_or_block (record : gmap string value) (now : float) :
  ((exists k, In k required_keys /\ record !! k = None) ->
   exists pre k post,
     required_keys = pre ++ k :: post
     /\ Forall (fun k' => is_Some (record !! k')) pre
     /\ record !! k = None
     /\ obtain_block_object record now = Raise (KeyError k))
  /\ (forall index proof_no prev_hash data timestamp,
        record !! "index" = Some index ->
        record !! "proof_no" = Some proof_no ->
        record !! "prev_hash" = Some prev_hash ->
        record !! "data" = Some data ->
        record !! "timestamp" = Some timestamp ->
        obtain_block_object record now
        = Ok (Block.__init__ index proof_no prev_hash data timestamp now)).
Proof.
  split.
  - apply obtain_block_object_absent.
  - intros. now apply obtain_block_object_present.
Qed.

Lemma obtain_block_object_KeyError_or_block_witness :
  (exists pre k post,
     required_keys = pre ++ k :: post
     /\ Forall (fun k' => is_Some ((∅ : gmap string value) !! k')) pre
     /\ (∅ : gmap string value) !! k = None
     /\ obtain_block_object ∅ sample_clock = Raise (KeyError k))
  /\ obtain_block_object mistyped_record sample_clock
     = Ok (Block.__init__ (PyStr "seven") (PyList []) PyNone (PyInt 3) (PyStr "noon")
            sample_clock).
Proof.
  split.
  - apply (proj1 (obtain_block_object_KeyError_or_block ∅ sample_clock)).
    exists "index". split; [now left | reflexivity].
  - apply (proj2 (obtain_block_object_KeyError_or_block mistyped_record sample_clock));
      unfold mistyped_record; lookup_inserted.
Defined.

(** C8 as stated fails: a record whose five values all have the wrong type
    is accepted, and a record with no key at all fails with a [KeyError];
    neither fails with a [MalformedRecordError]. *)
Lemma obtain_block_object_not_MalformedRecordError :
  (exists block, obtain_block_object mistyped_record sample_clock = Ok block)
  /\ ~ raises (obtain_block_object mistyped_record sample_clock) MalformedRecordError
  /\ obtain_block_object ∅ sample_clock = Raise (KeyError "index")
  /\ ~ raises (obtain_block_object ∅ sample_clock) MalformedRecordError.
Proof.
  assert (Hok : obtain_block_object mistyped_record sample_clock
                = Ok (Block.__init__ (PyStr "seven") (PyList []) PyNone (PyInt 3) (PyStr "noon")
            sample_clock)).
  { apply obtain_block_object_present; unfold mistyped_record; lookup_inserted. }
  unfold raises. rewrite Hok. repeat split; try discriminate. now eexists.
Qed.

(** C10. A block constructed with a falsy timestamp argument (0, 0.0,
    [None], ...) stores the clock reading instead, and one constructed with
    a truthy timestamp stores it unchanged.  So a record whose timestamp is
    0 is deserialised into a block stamped with the clock reading, which is
    not 0 unless the clock itself reads zero. *)
Theorem falsy_timestamp_replaced_by_clock :
  (forall index proof_no prev_hash data timestamp now,
     truthy timestamp = false ->
     Block.timestamp (Block.__init__ index proof_no prev_hash data timestamp now)
     = PyFloat now)
  /\ (forall index proof_no prev_hash data timestamp now,
        truthy timestamp = true ->
        Block.timestamp (Block.__init__ index proof_no prev_hash data timestamp now)
        = timestamp)
  /\ truthy (PyInt 0) = false
  /\ truthy (PyFloat PrimFloat.zero) = false
  /\ (forall (record : gmap string value) index proof_no prev_hash data now,
        record !! "index" = Some index ->
        record !! "proof_no" = Some proof_no ->
        record !! "prev_hash" = Some prev_hash ->
        record !! "data" = Some data ->
        record !! "timestamp" = Some (PyInt 0) ->
        exists block,
          obtain_block_object record now = Ok block
          /\ Block.timestamp block = PyFloat now
          /\ Block.timestamp block <> PyInt 0
          /\ (truthy (PyFloat now) = true ->
              py_eq (Block.timestamp block) (PyInt 0) = false)).
Proof.
  split; [|split; [|split; [|split]]]; try reflexivity.
  - intros * Hts. cbn [Block.__init__ Block.timestamp]. unfold py_or. now rewrite Hts.
  - intros * Hts. cbn [Block.__init__ Block.timestamp]. unfold py_or. now rewrite Hts.
  - intros * Hi Hp Hh Hd Ht. eexists. split.
    + apply obtain_block_object_present; eassumption.
    + cbn [Block.__init__ Block.timestamp]. unfold py_or. cbn [truthy Z.eqb negb].
      split; [reflexivity|]. split; [discriminate | apply truthy_float_ne_zero].
Qed.

Lemma falsy_timestamp_replaced_by_clock_witness :
  Block.timestamp (Block.__init__ (PyInt 1) (PyInt 1) (PyInt 0) (PyList []) (PyFloat PrimFloat.zero)
                     sample_clock)
  = PyFloat sample_clock
  /\ Block.timestamp (Block.__init__ (PyInt 1) (PyInt 1) (PyInt 0) (PyList []) (PyInt 7)
                        sample_clock)
     = PyInt 7.
Proof.
  split.
  - apply (proj1 falsy_timestamp_replaced_by_clock). reflexivity.
  - apply (proj1 (proj2 falsy_timestamp_replaced_by_clock)). reflexivity.
Defined.

(** ** The validity check *)
Section Validity.

Lemma py_eq_int (a b : Z) : py_eq (PyInt a) (PyInt b) = (a =? b).
Proof.
  cbn [py_eq num_of num_compare]. change (2 ^ (0 - Z.min 0 0)) with 1.
  rewrite !Z.mul_1_r.
  destruct (Z.eqb_spec a b) as [->|Hne]; [now rewrite Z.compare_refl|].
  destruct (Z.compare_spec a b); congruence.
Qed.

Lemma py_eq_str (s : string) (v : value) : py_eq (PyStr s) v = true <-> v = PyStr s.
Proof.
  destruct v; cbn [py_eq num_of]; try (split; discriminate).
  rewrite String.eqb_eq. split; congruence.
Qed.

Lemma py_le_num (a b : value) (x y : num) :
  num_of a = Some x -> num_of b = Some y ->
  py_le a b
  = Ok (match num_compare x y with Some Lt | Some Eq => true | _ => false end).
Proof.
  intros Ha Hb. destruct a; try discriminate Ha; cbn [py_le]; now rewrite Ha, Hb.
Qed.



End Validity.



(** * Further properties of the ledger *)

(** ** How the methods change the chain *)
Section ChainGrowth.

Lemma latest_block_inv self tip :
  latest_block self = Ok tip -> exists l, chain self = l ++ [tip].
Proof.
  unfold latest_block. intros Htip.
  destruct (chain self) as [|b l] eqn:Hchain using rev_ind.
  - rewrite list_getitem_nil in Htip. discriminate.
  - rewrite list_getitem_last in Htip. injection Htip as ->. now exists l.
Qed.

(** A successful [block_mining] spelled out. *)
Lemma block_mining_inv details_miner now self out self' :
  block_mining details_miner now self = Ok (out, self') ->
  exists l tip,
    chain self = l ++ [tip]
    /\ let block :=
         Block.__init__ (PyInt (Z.of_nat (length (chain self))))
           (proof_of_work (Block.proof_no tip)) (PyStr (Block.calculate_hash tip))
           (PyList (current_data self ++ [reward details_miner])) PyNone now in
       out = Block.vars block
       /\ self' = {| chain := chain self ++ [block]; current_data := [];
                     nodes := nodes self |}.
Proof.
  intros Hmine.
  destruct (latest_block self) as [tip|e] eqn:Htip.
  - destruct (latest_block_inv self tip Htip) as [l Hl].
    exists l, tip. split; [exact Hl|].
    rewrite (block_mining_ok details_miner now self tip Htip) in Hmine.
    injection Hmine as <- <-. now split.
  - unfold block_mining in Hmine. rewrite latest_block_new_data, Htip in Hmine.
    discriminate.
Qed.

Lemma mined_reachable self : mined self -> reachable self.
Proof.
  induction 1 as [now | s r q self _ IH | m now self out self' _ IH Hmine | a self _ IH].
  - apply reach_init.
  - now apply reach_new_data.
  - now apply (reach_block_mining m now self out self').
  - now apply reach_create_node.
Qed.

(** Appending a block numbered with the length keeps "index = position". *)
Lemma index_at_snoc (l : list Block.t) (b : Block.t) :
  (forall i x, l !! i = Some x -> Block.index x = PyInt (Z.of_nat i)) ->
  Block.index b = PyInt (Z.of_nat (length l)) ->
  forall i x, (l ++ [b]) !! i = Some x -> Block.index x = PyInt (Z.of_nat i).
Proof.
  intros Hl Hb i x Hx. apply lookup_app_Some in Hx as [Hx | [Hle Hx]].
  - now apply Hl.
  - apply list_lookup_singleton_Some in Hx as [Hi <-].
    replace i with (length l) by lia. exact Hb.
Qed.

Lemma reachable_index_at self :
  reachable self ->
  forall i b, chain self !! i = Some b -> Block.index b = PyInt (Z.of_nat i).
Proof.
  induction 1 as [now | s r q self _ IH | p h now self _ IH
                 | m now self out self' _ IH Hmine | a self _ IH];
    try exact IH.
  - intros i b Hb. apply (index_at_snoc [] _) in Hb; try done.
  - apply index_at_snoc; [exact IH | reflexivity].
  - destruct (block_mining_inv m now self out self' Hmine) as (l & tip & _ & _ & ->).
    apply index_at_snoc; [exact IH | reflexivity].
Qed.

Lemma step_chain self self' :
  step self self' ->
  chain self' = chain self \/ exists block, chain self' = chain self ++ [block].
Proof.
  destruct 1 as [s r q self | p h now self | m now self out self' Hmine | a self].
  - now left.
  - right. now eexists.
  - destruct (block_mining_inv m now self out self' Hmine) as (l & tip & _ & _ & ->).
    right. now eexists.
  - now left.
Qed.

End ChainGrowth.

(** X1. In every ledger a caller can get, the block at position [i] of the
    chain has index [i]. *)
Theorem chain_index_is_position (self : BlockChain.t) (i : nat) (b : Block.t) :
  reachable self -> chain self !! i = Some b -> Block.index b = PyInt (Z.of_nat i).
Proof. intros Hreach. now apply reachable_index_at. Qed.

Lemma chain_index_is_position_witness :
  Block.index sample_genesis = PyInt (Z.of_nat 0).
Proof.
  apply (chain_index_is_position (__init__ sample_clock) 0 sample_genesis).
  - apply reach_init.
  - reflexivity.
Defined.

(** X2. The chain is append-only: a call of [new_data], [construct_block],
    [block_mining] or [create_node] leaves every block where it was and
    adds at most one block at the end. *)
Theorem chain_append_only (self self' : BlockChain.t) :
  step self self' ->
  (forall i b, chain self !! i = Some b -> chain self' !! i = Some b)
  /\ (length (chain self) <= length (chain self') <= S (length (chain self)))%nat.
Proof.
  intros Hstep. destruct (step_chain self self' Hstep) as [-> | [block ->]].
  - split; [auto | lia].
  - split.
    + intros i b Hb. now apply lookup_app_l_Some.
    + rewrite length_app. cbn. lia.
Qed.

Lemma chain_append_only_witness :
  (forall i b, chain (__init__ sample_clock) !! i = Some b ->
               chain (snd (construct_block (PyInt 1) PyNone sample_clock
                             (__init__ sample_clock))) !! i = Some b)
  /\ (length (chain (__init__ sample_clock))
      <= length (chain (snd (construct_block (PyInt 1) PyNone sample_clock
                               (__init__ sample_clock))))
      <= S (length (chain (__init__ sample_clock))))%nat.
Proof.
  apply (chain_append_only (__init__ sample_clock)
           (snd (construct_block (PyInt 1) PyNone sample_clock (__init__ sample_clock)))).
  apply step_construct_block.
Defined.

(** X3. [construct_block] works on any ledger, the empty one too: the
    block it returns is the one [latest_block] gives afterwards; that block
    is numbered with the former length of the chain, holds the former
    pending list and is stamped with the clock reading; the pending list
    is left empty. *)
Theorem construct_block_is_latest (proof_no prev_hash : value) (now : float)
    (self : BlockChain.t) :
  let block := fst (construct_block proof_no prev_hash now self) in
  let self' := snd (construct_block proof_no prev_hash now self) in
  latest_block self' = Ok block
  /\ length (chain self') = S (length (chain self))
  /\ Block.index block = PyInt (Z.of_nat (length (chain self)))
  /\ Block.data block = PyList (current_data self)
  /\ Block.timestamp block = PyFloat now
  /\ current_data self' = []
  /\ nodes self' = nodes self.
Proof.
  cbn [construct_block fst snd chain current_data nodes]. repeat split.
  - apply list_getitem_last.
  - rewrite length_app. cbn. lia.
Qed.

(** ** Staging transactions *)
Section Staging.

Lemma stage_spec (txs : list (value * value * value)) :
  forall self,
    chain (stage txs self) = chain self
    /\ current_data (stage txs self) = current_data self ++ map transaction txs
    /\ nodes (stage txs self) = nodes self.
Proof.
  unfold stage. induction txs as [|tx txs IH]; intros self; cbn [fold_left map].
  - now rewrite app_nil_r.
  - destruct (IH (snd (new_data (fst (fst tx)) (snd (fst tx)) (snd tx) self)))
      as (Hc & Hd & Hn).
    rewrite Hc, Hd, Hn. cbn [new_data snd chain current_data nodes].
    now rewrite <- app_assoc.
Qed.

End Staging.

(** X4. Transactions staged with [new_data] are kept in the order they
    were submitted, duplicates and all, without touching the chain; the next
    block, whether built by [construct_block] or mined, holds the pending
    list followed by them (and, when mined, by the reward). *)
Theorem staged_transactions_reach_next_block
    (txs : list (value * value * value)) (self : BlockChain.t) (now : float) :
  chain (stage txs self) = chain self
  /\ current_data (stage txs self) = current_data self ++ map transaction txs
  /\ (forall proof_no prev_hash,
        Block.data (fst (construct_block proof_no prev_hash now (stage txs self)))
        = PyList (current_data self ++ map transaction txs))
  /\ (forall details_miner out self',
        block_mining details_miner now (stage txs self) = Ok (out, self') ->
        out !! "data"
        = Some (PyList (current_data self ++ map transaction txs ++ [reward details_miner]))
        /\ current_data self' = []).
Proof.
  destruct (stage_spec txs self) as (Hc & Hd & Hn).
  split; [exact Hc|]. split; [exact Hd|]. split.
  - intros proof_no prev_hash. cbn [construct_block fst Block.__init__ Block.data].
    now rewrite Hd.
  - intros m out self' Hmine.
    destruct (block_mining_inv m now _ out self' Hmine) as (l & tip & _ & -> & ->).
    split; [|reflexivity].
    destruct (vars_lookup (Block.__init__ (PyInt (Z.of_nat (length (chain (stage txs self)))))
                 (proof_of_work (Block.proof_no tip)) (PyStr (Block.calculate_hash tip))
                 (PyList (current_data (stage txs self) ++ [reward m])) PyNone now))
      as (_ & _ & _ & -> & _).
    cbn [Block.__init__ Block.data]. now rewrite Hd, <- app_assoc.
Qed.

Lemma staged_transactions_reach_next_block_witness :
  exists out self',
    block_mining (PyStr "miner1") sample_clock
      (stage [(PyStr "A", PyStr "B", PyInt 5); (PyStr "A", PyStr "B", PyInt 5)]
         (__init__ sample_clock))
    = Ok (out, self')
    /\ out !! "data"
       = Some (PyList [transaction (PyStr "A", PyStr "B", PyInt 5);
                       transaction (PyStr "A", PyStr "B", PyInt 5);
                       reward (PyStr "miner1")])
    /\ current_data self' = [].
Proof.
  eexists _, _. split.
  - apply (block_mining_ok (PyStr "miner1") sample_clock _ sample_genesis). reflexivity.
  - apply (proj2 (proj2 (proj2
             (staged_transactions_reach_next_block
                [(PyStr "A", PyStr "B", PyInt 5); (PyStr "A", PyStr "B", PyInt 5)]
                (__init__ sample_clock) sample_clock))) (PyStr "miner1")).
    apply (block_mining_ok (PyStr "miner1") sample_clock _ sample_genesis). reflexivity.
Defined.



(** X6. [create_node] keeps a set of addresses: it always answers [True],
    adds the address and removes none, leaves the chain and the pending list
    alone; adding an address twice is the same as adding it once, and the
    order of two additions does not matter. *)
Theorem create_node_is_set_insertion (a b : string) (self : BlockChain.t) :
  fst (create_node a self) = PyBool true
  /\ chain (snd (create_node a self)) = chain self
  /\ current_data (snd (create_node a self)) = current_data self
  /\ a ∈ nodes (snd (create_node a self))
  /\ (forall c, c ∈ nodes self -> c ∈ nodes (snd (create_node a self)))
  /\ (forall c, c ∈ nodes (snd (create_node a self)) -> c = a \/ c ∈ nodes self)
  /\ snd (create_node a (snd (create_node a self))) = snd (create_node a self)
  /\ snd (create_node a (snd (create_node b self)))
     = snd (create_node b (snd (create_node a self))).
Proof.
  cbn [create_node fst snd chain current_data nodes].
  do 3 (split; [reflexivity|]).
  split; [set_solver|]. split; [set_solver|]. split; [set_solver|].
  split; f_equal.
  - now rewrite (assoc_L (∪)), (idemp_L (∪)).
  - now rewrite !(assoc_L (∪)), (comm_L (∪) {[a]} {[b]}).
Qed.

(** ** Ledgers grown by mining *)
Section Mined.

(** Against 0 and against 1 the predicate fails for candidates 0 and 1,
    so the proof of work of either is 1. *)
Lemma verifying_proof_small :
  verifying_proof (PyInt 0) (PyInt 0) = false
  /\ verifying_proof (PyInt 0) (PyInt 1) = false
  /\ verifying_proof (PyInt 1) (PyInt 0) = false
  /\ verifying_proof (PyInt 1) (PyInt 1) = false.
Proof. repeat split; now vm_compute. Qed.

Lemma proof_of_work_small (p : Z) :
  p = 0 \/ p = 1 -> proof_of_work (PyInt p) = PyInt 1.
Proof.
  destruct verifying_proof_small as (H00 & H01 & _ & _).
  intros [-> | ->]; rewrite proof_of_work_value; [now rewrite H00 | now rewrite H01].
Qed.

Lemma mined_chain_snoc (l : list Block.t) (tip block : Block.t) :
  mined_chain (l ++ [tip]) ->
  Block.index block = PyInt (Z.of_nat (length (l ++ [tip]))) ->
  Block.proof_no block = PyInt 1 ->
  Block.prev_hash block = PyStr (Block.calculate_hash tip) ->
  mined_chain ((l ++ [tip]) ++ [block]).
Proof.
  intros (Hidx & Hlink & Hfirst) Hi Hp Hh.
  assert (Hlen : length (l ++ [tip]) = S (length l)) by (rewrite length_app; cbn; lia).
  split; [|split].
  - intros i b Hb. apply lookup_app_Some in Hb as [Hb | [Hle Hb]].
    + now apply Hidx.
    + apply list_lookup_singleton_Some in Hb as [Hz <-].
      replace i with (S (length l)) by lia. rewrite <- Hlen. now split.
  - intros i p b Hpi Hbi.
    apply lookup_app_Some in Hbi as [Hbi | [Hle Hbi]].
    + apply (Hlink i p b); [|exact Hbi].
      apply lookup_app_Some in Hpi as [Hpi | [Hle' _]]; [exact Hpi|].
      apply lookup_lt_Some in Hbi. lia.
    + apply list_lookup_singleton_Some in Hbi as [Hz <-].
      assert (i = length l) as -> by lia.
      rewrite lookup_app_l in Hpi by lia.
      rewrite lookup_app_r, Nat.sub_diag in Hpi by lia.
      injection Hpi as <-. exact Hh.
  - intros b Hb. apply Hfirst.
    rewrite lookup_app_l in Hb by lia. exact Hb.
Qed.

Lemma mined_chain_invariant self : mined self -> mined_chain (chain self).
Proof.
  induction 1 as [now | s r q self _ IH | m now self out self' _ IH Hmine | a self _ IH];
    try exact IH.
  - split; [|split].
    + intros i b Hb. apply list_lookup_singleton_Some in Hb as [-> <-]. now split.
    + intros i p b _ Hb. apply list_lookup_singleton_Some in Hb as [? _]. lia.
    + intros b Hb. apply list_lookup_singleton_Some in Hb as [_ <-]. reflexivity.
  - destruct (block_mining_inv m now self out self' Hmine) as (l & tip & Hl & _ & ->).
    cbn [chain]. rewrite Hl in IH |- *.
    apply mined_chain_snoc; try reflexivity; [exact IH|].
    cbn [Block.__init__ Block.proof_no].
    destruct IH as (Hidx & _ & _).
    destruct (Hidx (length l) tip) as [_ Hp].
    { now rewrite lookup_app_r, Nat.sub_diag by lia. }
    rewrite Hp. apply proof_of_work_small. destruct (length l); auto.
Qed.

Lemma sample_mined_ledger_is_mined : mined sample_mined_ledger.
Proof.
  apply (mined_block_mining (PyStr "miner1") sample_clock (__init__ sample_clock)
           (Block.vars sample_mined_block) sample_mined_ledger (mined_init sample_clock)).
  reflexivity.
Qed.

End Mined.

(** X7. In a ledger made by the constructor, [new_data], [create_node] and
    [block_mining], the blocks are linked: each block after the first
    carries in [prev_hash] the content hash of the block before it, as that
    hash is computed now; the first block carries 0. *)
Theorem mined_chain_is_hash_linked (self : BlockChain.t) :
  mined self ->
  (forall i p b, chain self !! i = Some p -> chain self !! S i = Some b ->
     Block.prev_hash b = PyStr (Block.calculate_hash p))
  /\ (forall b, chain self !! O = Some b -> Block.prev_hash b = PyInt 0).
Proof. intros Hm. now destruct (mined_chain_invariant self Hm) as (_ & Hlink & Hfirst). Qed.

Lemma mined_chain_is_hash_linked_witness :
  Block.prev_hash sample_mined_block = PyStr (Block.calculate_hash sample_genesis).
Proof.
  apply (proj1 (mined_chain_is_hash_linked sample_mined_ledger sample_mined_ledger_is_mined)
           0%nat sample_genesis sample_mined_block); reflexivity.
Defined.

(** X8. In such a ledger the first block has proof number 0 and every other
    block has proof number 1, whoever mined it and whenever. *)
Theorem mined_proof_numbers (self : BlockChain.t) (i : nat) (b : Block.t) :
  mined self -> chain self !! i = Some b ->
  Block.proof_no b = PyInt (match i with O => 0 | S _ => 1 end).
Proof.
  intros Hm Hb. destruct (mined_chain_invariant self Hm) as (Hidx & _ & _).
  now destruct (Hidx i b Hb).
Qed.

Lemma mined_proof_numbers_witness :
  Block.proof_no sample_mined_block = PyInt 1.
Proof.
  apply (mined_proof_numbers sample_mined_ledger 1 sample_mined_block
           sample_mined_ledger_is_mined).
  reflexivity.
Defined.

(** X9. In such a ledger [check_validity] returns [False] for every block
    and the block before it: the proof number 1 of a mined block does not
    satisfy the predicate against 0 or 1, whatever the timestamps are. *)
Theorem mined_blocks_fail_check_validity
    (self : BlockChain.t) (i : nat) (prev_block block : Block.t) :
  mined self ->
  chain self !! i = Some prev_block -> chain self !! S i = Some block ->
  check_validity block prev_block = Ok false.
Proof.
  intros Hm Hp Hb. destruct (mined_chain_invariant self Hm) as (Hidx & _ & _).
  destruct (Hidx i prev_block Hp) as [Hpi Hpp].
  destruct (Hidx (S i) block Hb) as [_ Hbp].
  destruct verifying_proof_small as (_ & _ & H10 & H11).
  unfold check_validity. rewrite Hpi, Hbp, Hpp. cbn [py_add_one]. rewrite bind_ok.
  destruct (py_ne _ (Block.index block)); [reflexivity|].
  destruct (py_ne _ (Block.prev_hash block)); [reflexivity|].
  destruct i; [now rewrite H10 | now rewrite H11].
Qed.

Lemma mined_blocks_fail_check_validity_witness :
  check_validity sample_mined_block sample_genesis = Ok false.
Proof.
  apply (mined_blocks_fail_check_validity sample_mined_ledger 0
           sample_genesis sample_mined_block).
  - exact sample_mined_ledger_is_mined.
  - reflexivity.
  - reflexivity.
Defined.

(** X10. The mapping [block_mining] returns describes the block it
    appended: read back with [obtain_block_object], at any later time, it
    gives the block that [latest_block] now returns, provided the clock did
    not read zero when the block was mined. *)
Theorem block_mining_output_is_new_tip
    (details_miner : value) (now later : float) (self self' : BlockChain.t)
    (out : gmap string value) :
  truthy (PyFloat now) = true ->
  block_mining details_miner now self = Ok (out, self') ->
  exists block,
    obtain_block_object out later = Ok block
    /\ latest_block self' = Ok block
    /\ out = Block.vars block.
Proof.
  intros Hnow Hmine.
  destruct (block_mining_inv details_miner now self out self' Hmine)
    as (l & tip & _ & -> & ->).
  eexists. split; [|split; [apply list_getitem_last | reflexivity]].
  apply obtain_block_object_vars_truthy. now apply init_timestamp_truthy.
Qed.

Lemma block_mining_output_is_new_tip_witness :
  exists block,
    obtain_block_object (Block.vars sample_mined_block) PrimFloat.one = Ok block
    /\ latest_block sample_mined_ledger = Ok block
    /\ Block.vars sample_mined_block = Block.vars block.
Proof.
  apply (block_mining_output_is_new_tip (PyStr "miner1") sample_clock PrimFloat.one
           (__init__ sample_clock) sample_mined_ledger (Block.vars sample_mined_block));
    reflexivity.
Defined.

(** X11. What [obtain_block_object] makes of a record: the block's
    attributes are the record's values for index, proof_no, prev_hash and
    data; its timestamp is the record's when that is truthy and the clock
    reading otherwise; any other key of the record is dropped. *)
Theorem obtain_block_object_keeps_five_keys
    (record : gmap string value) (now : float) (block : Block.t) :
  obtain_block_object record now = Ok block ->
  Block.vars block !! "index" = record !! "index"
  /\ Block.vars block !! "proof_no" = record !! "proof_no"
  /\ Block.vars block !! "prev_hash" = record !! "prev_hash"
  /\ Block.vars block !! "data" = record !! "data"
  /\ (exists timestamp,
        record !! "timestamp" = Some timestamp
        /\ Block.vars block !! "timestamp"
           = Some (if truthy timestamp then timestamp else PyFloat now))
  /\ (forall k, ~ In k required_keys -> Block.vars block !! k = None).
Proof.
  unfold obtain_block_object, dict_getitem. intros Hok.
  destruct (record !! "index") as [i|]; [|discriminate].
  destruct (record !! "proof_no") as [p|]; [|discriminate].
  destruct (record !! "prev_hash") as [h|]; [|discriminate].
  destruct (record !! "data") as [d|]; [|discriminate].
  destruct (record !! "timestamp") as [t|]; [|discriminate].
  injection Hok as <-.
  destruct (vars_lookup (Block.__init__ i p h d t now)) as (-> & -> & -> & -> & ->).
  do 4 (split; [reflexivity|]). split; [now exists t|].
  intros k Hk. unfold Block.vars, required_keys in *. cbn [In] in Hk.
  repeat (rewrite lookup_insert_ne by (intros <-; tauto)).
  apply lookup_empty.
Qed.

Lemma obtain_block_object_keeps_five_keys_witness :
  Block.vars sample_genesis !! "index"
  = (<["miner" := PyStr "miner1"]> (<["timestamp" := PyNone]> (Block.vars sample_genesis)))
      !! "index"
  /\ Block.vars sample_genesis !! "miner" = None.
Proof.
  destruct (obtain_block_object_keeps_five_keys
              (<["miner" := PyStr "miner1"]>
                 (<["timestamp" := PyNone]> (Block.vars sample_genesis)))
              sample_clock sample_genesis) as (Hi & _ & _ & _ & _ & Hother).
  - apply obtain_block_object_present; unfold Block.vars; lookup_inserted.
  - split; [exact Hi|]. apply Hother. cbn. intros [H|[H|[H|[H|[H|[]]]]]]; discriminate H.
Defined.

(** ** The validity check on blocks of any kind *)
Section ValidityAnyBlocks.



End ValidityAnyBlocks.

(** X12. Whatever the two blocks hold, when [check_validity] returns
    [True] the block's [prev_hash] is a string, the content hash of the
    previous block, the proof numbers satisfy the predicate, the index is
    equal to the previous index plus one, and [<=] between the timestamps is
    false.  So a block whose [prev_hash] is not a string, like the first
    block with its 0, is accepted after no block. *)
Theorem check_validity_true_inv (block prev_block : Block.t) :
  check_validity block prev_block = Ok true ->
  (exists next,
     py_add_one (Block.index prev_block) = Ok next
     /\ py_eq next (Block.index block) = true)
  /\ Block.prev_hash block = PyStr (Block.calculate_hash prev_block)
  /\ verifying_proof (Block.proof_no block) (Block.proof_no prev_block) = true
  /\ py_le (Block.timestamp block) (Block.timestamp prev_block) = Ok false.
Proof.
  unfold check_validity, py_ne.
  destruct (py_add_one (Block.index prev_block)) as [next|e]; [|discriminate].
  rewrite bind_ok.
  destruct (py_eq next (Block.index block)) eqn:Hidx; [|discriminate]. cbn [negb].
  destruct (py_eq _ (Block.prev_hash block)) eqn:Hh; [|discriminate]. cbn [negb].
  destruct (verifying_proof _ _); [|discriminate]. cbn [negb].
  destruct (py_le _ _) as [[|]|e]; try discriminate.
  intros _. apply py_eq_str in Hh.
  split; [now exists next|]. now repeat split.
Qed.

Lemma check_validity_true_inv_witness :
  Block.prev_hash sample_successor = PyStr (Block.calculate_hash sample_genesis).
Proof.
  apply (check_validity_true_inv sample_successor sample_genesis).
  now vm_compute.
Defined.



(** X14. The timestamp test is "not [<=]": when the other three tests pass
    and both timestamps are numbers one of which is [nan], the check
    returns [True] although the block's timestamp is not greater than the
    previous one. *)
Theorem check_validity_accepts_nan_timestamp
    (block prev_block : Block.t) (i j : Z) (x y : num) :
  Block.index block = PyInt i ->
  Block.index prev_block = PyInt j ->
  i = j + 1 ->
  Block.prev_hash block = PyStr (Block.calculate_hash prev_block) ->
  verifying_proof (Block.proof_no block) (Block.proof_no prev_block) = true ->
  num_of (Block.timestamp block) = Some x ->
  num_of (Block.timestamp prev_block) = Some y ->
  x = NNan \/ y = NNan ->
  check_validity block prev_block = Ok true
  /\ num_gt (Block.timestamp block) (Block.timestamp prev_block) = false.
Proof.
  intros Hi Hj Hij Hh Hv Hx Hy Hnan.
  assert (Hcmp : num_compare x y = None).
  { destruct Hnan as [-> | ->]; [reflexivity | now destruct x]. }
  split.
  - unfold check_validity, py_ne.
    rewrite Hi, Hj, Hh, Hv. cbn [py_add_one]. rewrite bind_ok, py_eq_int.
    destruct (Z.eqb_spec (j + 1) i) as [_|?]; [|lia]. cbn [negb].
    rewrite (proj2 (py_eq_str _ _) eq_refl). cbn [negb].
    now rewrite (py_le_num _ _ x y Hx Hy), Hcmp.
  - unfold num_gt. now rewrite Hx, Hy, Hcmp.
Qed.

Lemma check_validity_accepts_nan_timestamp_witness :
  check_validity
    (Block.mk (PyInt 1) (PyInt 88914) (PyStr (Block.calculate_hash sample_genesis))
       (PyList []) (PyFloat PrimFloat.nan))
    sample_genesis = Ok true
  /\ num_gt (PyFloat PrimFloat.nan) (Block.timestamp sample_genesis) = false.
Proof.
  apply (check_validity_accepts_nan_timestamp
           (Block.mk (PyInt 1) (PyInt 88914) (PyStr (Block.calculate_hash sample_genesis))
              (PyList []) (PyFloat PrimFloat.nan))
           sample_genesis 1 0 NNan (num_of_float sample_clock));
    try reflexivity; try (now vm_compute). now left.
Defined.

(** ** The hashed text does not mark where a field ends *)
Section FieldBoundaries.







End FieldBoundaries.





(** ** The shape of a content hash *)
Section HashShape.

Import SHA256.










End HashShape.


(** ** Auditing a chain *)
Section Audit.


End Audit.


